(** * jsmfsb simulation drivers ([src/jsmfsb/sim.py])

    A shallow embedding of [simTs], [simSample] and [simSampleMap], the three
    drivers of [sim.py], together with the properties the specification
    states about them.

    Modelling choices.
    - A time argument ([t0], [tt], [dt], [deltat]) is a Python number: an
      unbounded [int] or a binary64 [float].  Line 50 is evaluated with
      Python's arithmetic: integer operations are exact, float subtraction
      rounds to nearest even and float [//] follows CPython's
      [float_floor_div].  Floats are IEEE 754 values ([SpecFloat]).
    - Inside [jax.lax.scan] the time is a JAX scalar of the default 32-bit
      configuration: [int32] with wrap-around when [t0] and [dt] are both
      ints, [float32] otherwise.  A Python int [t0] that does not fit
      [int32] raises [OverflowError] when it enters the carry.
    - A state is any type; an array of numbers is a [list].
    - [jax.random.split] belongs to JAX and is taken as an interface
      ([RandomSource]); [jax.lax.scan], [jax.lax.map], [jax.vmap] and [jit]
      are given their functional meaning.
    - A Python exception is a [Raise] result. *)

From Equations Require Import Equations.
From Stdlib Require Import List ZArith QArith Qround Lia Bool.
From Stdlib Require Import SpecFloat.
Import ListNotations.

Set Implicit Arguments.

(** ** Results and exceptions *)

Inductive exn : Type :=
| ZeroDivisionError
| OverflowError
| ValueError
| TypeError
| InvalidArgument.

Inductive result (A : Type) : Type :=
| Ok (a : A)
| Raise (e : exn).

Arguments Ok {A} a.
Arguments Raise {A} e.

Definition bind {A B : Type} (r : result A) (k : A -> result B) : result B :=
  match r with
  | Ok a => k a
  | Raise e => Raise e
  end.

Notation "x <- r ;; k" := (bind r (fun x => k))
  (at level 61, r at next level, right associativity).

(** ** The random source: [jax.random.split]

    [split key n] is the array of [n] children of [key].  The library is not
    part of the repository; what the drivers rely on is that a count that
    is not negative is accepted and that an accepted call returns exactly
    that many keys. *)

Class RandomSource (Key : Type) : Type := {
  split : Key -> Z -> result (list Key);
  split_nonneg : forall k n, (0 <= n)%Z -> exists ks, split k n = Ok ks;
  split_length : forall k n ks, split k n = Ok ks -> Z.of_nat (length ks) = n
}.

(** ** Python numbers *)

Open Scope Z_scope.

(** A Python [int] or [float]. *)
Inductive pynum : Type :=
| PyInt (z : Z)
| PyFloat (f : spec_float).

(** *** binary64 *)

Definition f64_sub : spec_float -> spec_float -> spec_float := SFsub 53 1024.
Definition f64_add : spec_float -> spec_float -> spec_float := SFadd 53 1024.
Definition f64_div : spec_float -> spec_float -> spec_float := SFdiv 53 1024.

(** The float nearest to an integer (ties to even), infinite on overflow. *)
Definition f64_of_Z (z : Z) : spec_float := binary_normalize 53 1024 z 0 false.

Definition f64_zero : spec_float := S754_zero false.
Definition f64_one : spec_float := f64_of_Z 1.
Definition f64_half : spec_float := S754_finite false 4503599627370496 (-53).

(** The float literals used below. *)
Definition f64_0_1 : spec_float := S754_finite false 7205759403792794 (-56).
Definition f64_0_4 : spec_float := S754_finite false 7205759403792794 (-54).
Definition f64_0_5 : spec_float := S754_finite false 4503599627370496 (-53).
Definition f64_1_1 : spec_float := S754_finite false 4953959590107546 (-52).
Definition f64_1_2 : spec_float := S754_finite false 5404319552844595 (-52).

Definition is_zero (f : spec_float) : bool :=
  match f with
  | S754_zero _ => true
  | _ => false
  end.

Definition sign_bit (f : spec_float) : bool :=
  match f with
  | S754_zero s | S754_infinity s | S754_finite s _ _ => s
  | S754_nan => false
  end.

(** C's [fmod]: the remainder of the truncated quotient, exact, with the
    sign of [x]. *)
Definition fmod (x y : spec_float) : spec_float :=
  match x, y with
  | S754_nan, _ | _, S754_nan => S754_nan
  | S754_infinity _, _ => S754_nan
  | _, S754_zero _ => S754_nan
  | _, S754_infinity _ => x
  | S754_zero _, _ => x
  | S754_finite sx mx ex, S754_finite _ my ey =>
      let e := Z.min ex ey in
      let X := Z.shiftl (Zpos mx) (ex - e) in
      let Y := Z.shiftl (Zpos my) (ey - e) in
      binary_normalize 53 1024 (cond_Zopp sx (Z.rem X Y)) e sx
  end.

(** C's [floor]. *)
Definition f64_floor (x : spec_float) : spec_float :=
  match x with
  | S754_finite s m e =>
      if 0 <=? e then x
      else binary_normalize 53 1024 (Z.shiftr (cond_Zopp s (Zpos m)) (- e)) 0 s
  | _ => x
  end.

(** CPython's [_float_div_mod], the quotient part: [vx // wx] for a
    divisor that is not zero. *)
Definition float_floor_div (vx wx : spec_float) : spec_float :=
  let mod_ := fmod vx wx in
  let div := f64_div (f64_sub vx mod_) wx in
  let div :=
    if negb (is_zero mod_)
       && negb (Bool.eqb (SFltb wx f64_zero) (SFltb mod_ f64_zero))
    then f64_sub div f64_one
    else div in
  if negb (is_zero div) then
    let floordiv := f64_floor div in
    if SFltb f64_half (f64_sub div floordiv)
    then f64_add floordiv f64_one
    else floordiv
  else S754_zero (sign_bit (f64_div vx wx)).

(** [float(z)]: an int too large for a float raises. *)
Definition to_float (a : pynum) : result spec_float :=
  match a with
  | PyFloat f => Ok f
  | PyInt z =>
      match f64_of_Z z with
      | S754_infinity _ => Raise OverflowError
      | f => Ok f
      end
  end.

(** [a - b]. *)
Definition py_sub (a b : pynum) : result pynum :=
  match a, b with
  | PyInt x, PyInt y => Ok (PyInt (x - y))
  | _, _ =>
      fa <- to_float a ;;
      fb <- to_float b ;;
      Ok (PyFloat (f64_sub fa fb))
  end.

(** [a // b]: [ZeroDivisionError] on a zero divisor. *)
Definition py_floordiv (a b : pynum) : result pynum :=
  match a, b with
  | PyInt x, PyInt y =>
      if y =? 0 then Raise ZeroDivisionError else Ok (PyInt (x / y))
  | _, _ =>
      fa <- to_float a ;;
      fb <- to_float b ;;
      if is_zero fb then Raise ZeroDivisionError
      else Ok (PyFloat (float_floor_div fa fb))
  end.

(** [int(a)]: truncation towards zero. *)
Definition py_int (a : pynum) : result Z :=
  match a with
  | PyInt z => Ok z
  | PyFloat S754_nan => Raise ValueError
  | PyFloat (S754_infinity _) => Raise OverflowError
  | PyFloat (S754_zero _) => Ok 0
  | PyFloat (S754_finite s m e) =>
      Ok (cond_Zopp s
            (if 0 <=? e then Z.shiftl (Zpos m) e else Z.shiftr (Zpos m) (- e)))
  end.

(** Line 50: [n = int((tt-t0) // dt) + 1]. *)
Definition step_count (t0 tt dt : pynum) : result Z :=
  d <- py_sub tt t0 ;;
  q <- py_floordiv d dt ;;
  i <- py_int q ;;
  Ok (i + 1).

(** ** JAX scalars *)

(** A scalar inside a traced computation: [int32] or [float32]. *)
Inductive jaxnum : Type :=
| Int32 (z : Z)
| Float32 (f : spec_float).

Definition in_int32 (z : Z) : Prop := - 2 ^ 31 <= z < 2 ^ 31.

Definition in_int32b (z : Z) : bool := (- 2 ^ 31 <=? z) && (z <? 2 ^ 31).

(** Two's complement wrap-around of [int32] arithmetic. *)
Definition wrap32 (z : Z) : Z := (z + 2 ^ 31) mod 2 ^ 32 - 2 ^ 31.

Definition f32_add : spec_float -> spec_float -> spec_float := SFadd 24 128.

Definition f32_of_Z (z : Z) : spec_float := binary_normalize 24 128 z 0 false.

Definition f32_of_f64 (f : spec_float) : spec_float :=
  match f with
  | S754_finite s m e => binary_round 24 128 s m e
  | _ => f
  end.

(** A Python int becomes an [int32] array; one that does not fit raises. *)
Definition int32_of_py (z : Z) : result Z :=
  if in_int32b z then Ok z else Raise OverflowError.

(** The time [t0] as it enters the carry of the scan of [simTs].  The
    carry has the type of [t + dt]: [int32] when [t0] and [dt] are both
    ints, [float32] otherwise. *)
Definition carry_init (t0 dt : pynum) : result jaxnum :=
  match t0, dt with
  | PyInt a, PyInt d =>
      a' <- int32_of_py a ;;
      _ <- int32_of_py d ;;
      Ok (Int32 a')
  | PyInt a, PyFloat _ =>
      a' <- int32_of_py a ;;
      Ok (Float32 (f32_of_Z a'))
  | PyFloat f, _ => Ok (Float32 (f32_of_f64 f))
  end.

(** [t + dt] on line 56, for a traced [t] and the Python number [dt]. *)
Definition carry_add (t : jaxnum) (dt : pynum) : jaxnum :=
  match t, dt with
  | Int32 a, PyInt d => Int32 (wrap32 (a + d))
  | Int32 a, PyFloat f => Float32 (f32_add (f32_of_Z a) (f32_of_f64 f))
  | Float32 t, PyInt d => Float32 (f32_add t (f32_of_Z d))
  | Float32 t, PyFloat f => Float32 (f32_add t (f32_of_f64 f))
  end.

(** What a step function receives as its time: the Python number it was
    given by [simSample], or the traced scalar of the scan of [simTs]. *)
Inductive scalar : Type :=
| Py (p : pynum)
| Jax (j : jaxnum).

(** The rational a finite float denotes. *)
Definition float_value (f : spec_float) : option Q :=
  match f with
  | S754_zero _ => Some 0%Q
  | S754_finite s m e =>
      Some (match e with
            | Z0 => inject_Z (cond_Zopp s (Zpos m))
            | Zpos p => inject_Z (cond_Zopp s (Zpos m) * 2 ^ Zpos p)
            | Zneg p => Qmake (cond_Zopp s (Zpos m)) (2 ^ p)
            end)
  | _ => None
  end.

Definition pynum_value (a : pynum) : option Q :=
  match a with
  | PyInt z => Some (inject_Z z)
  | PyFloat f => float_value f
  end.

Definition jaxnum_value (a : jaxnum) : option Q :=
  match a with
  | Int32 z => Some (inject_Z z)
  | Float32 f => float_value f
  end.

Definition scalar_value (a : scalar) : option Q :=
  match a with
  | Py p => pynum_value p
  | Jax j => jaxnum_value j
  end.

(** [floor((tt - t0) / dt)] on the rationals the three numbers denote. *)
Definition exact_floor (t0 tt dt : pynum) : option Z :=
  match pynum_value t0, pynum_value tt, pynum_value dt with
  | Some a, Some b, Some d => Some (Qfloor ((b - a) / d))
  | _, _, _ => None
  end.

(** Two scalars denote the same number. *)
Definition same_value (a b : option Q) : Prop :=
  match a, b with
  | Some x, Some y => (x == y)%Q
  | _, _ => False
  end.

(** ** JAX combinators *)

Section Combinators.
Variables C X Y : Type.

(** [jax.lax.scan f init xs]: thread the carry through [xs] from left to
    right and stack the per-step outputs. *)
Fixpoint scan (f : C -> X -> C * Y) (init : C) (xs : list X) : C * list Y :=
  match xs with
  | [] => (init, [])
  | x :: xs' =>
      let '(c, y) := f init x in
      let '(c', ys) := scan f c xs' in
      (c', y :: ys)
  end.

(** The carry that enters each step of [scan f init xs]. *)
Fixpoint carries_in (f : C -> X -> C * Y) (init : C) (xs : list X) : list C :=
  match xs with
  | [] => []
  | x :: xs' => init :: carries_in f (fst (f init x)) xs'
  end.

End Combinators.

(** [jax.vmap f]: apply [f] along the leading axis. *)
Definition vmap {X Y : Type} (f : X -> Y) (xs : list X) : list Y :=
  List.map f xs.

(** [jax.lax.map f xs], which JAX defines as a scan with an empty carry. *)
Definition lax_map {X Y : Type} (f : X -> Y) (xs : list X) : list Y :=
  snd (scan (fun (_ : unit) x => (tt, f x)) tt xs).

(** [jit f] compiles [f]; it computes what [f] computes. *)
Definition jit {A B : Type} (f : A -> B) : A -> B := f.

(** ** The drivers *)

(** A step function [stepFun(key, x, t, dt)]. *)
Definition StepFun (Key State : Type) : Type :=
  Key -> State -> scalar -> pynum -> State.

Section Drivers.
Context {Key : Type} {RS : RandomSource Key}.
Variable State : Type.

(** The closure [advance] of [simTs] (lines 52-57). *)
Definition advance (dt : pynum) (stepFun : StepFun Key State)
    (state : State * jaxnum) (key : Key) : (State * jaxnum) * State :=
  let '(x, t) := state in
  let x := stepFun key x (Jax t) dt in
  let t := carry_add t dt in
  ((x, t), x).

(** [simTs] (lines 50-59). *)
Definition simTs (key : Key) (x0 : State) (t0 tt dt : pynum)
    (stepFun : StepFun Key State) : result (list State) :=
  n <- step_count t0 tt dt ;;
  keys <- split key n ;;
  t0' <- carry_init t0 dt ;;
  let '(_, mat) := scan (advance dt stepFun) (x0, t0') keys in
  Ok mat.

(** [simSample] (lines 105-109).  [u = len(x0)] is computed and never
    used; [x0] is an array, for which [len] succeeds. *)
Definition simSample (key : Key) (n : Z) (x0 : State) (t0 deltat : pynum)
    (stepFun : StepFun Key State) : result (list State) :=
  keys <- split key n ;;
  let vstep := jit (vmap (fun k => stepFun k x0 (Py t0) deltat)) in
  let mat := vstep keys in
  Ok mat.

(** [simSampleMap] (lines 155-158). *)
Definition simSampleMap (key : Key) (n : Z) (x0 : State) (t0 deltat : pynum)
    (stepFun : StepFun Key State) : result (list State) :=
  keys <- split key n ;;
  let mat := lax_map (fun k => stepFun k x0 (Py t0) deltat) keys in
  Ok mat.

(** The time handed to the step function at each step of [simTs]: the time
    component of the carry that enters the step (line 55). *)
Definition simTs_call_times (key : Key) (x0 : State) (t0 tt dt : pynum)
    (stepFun : StepFun Key State) : result (list jaxnum) :=
  n <- step_count t0 tt dt ;;
  keys <- split key n ;;
  t0' <- carry_init t0 dt ;;
  Ok (List.map snd (carries_in (advance dt stepFun) (x0, t0') keys)).
End Drivers.

(** The state that enters step [i] of a trajectory [mat] begun at [x0]. *)
Definition state_before {State : Type} (x0 : State) (mat : list State)
    (i : nat) : State :=
  match i with
  | O => x0
  | S j => nth j mat x0
  end.

(** The time carried into step [i]: [c0] after [i] additions of [dt]. *)
Definition carried_time (c0 : jaxnum) (dt : pynum) (i : nat) : jaxnum :=
  Nat.iter i (fun t => carry_add t dt) c0.

(** ** The batched sampler *)

(** Consecutive groups of [b] elements, the last one possibly shorter. *)
Equations? chunks {A : Type} (b : nat) (l : list A) : list (list A)
    by wf (length l) lt :=
  chunks _ [] := [];
  chunks 0 (_ :: _) := [];
  chunks (S b) (x :: l) := (x :: firstn b l) :: chunks (S b) (skipn b l).
Proof. rewrite length_skipn. simpl. lia. Qed.

(** Modelled from the spec: the batched ensemble sampler ([sim_sample] with
    a [batch_size] argument), which [sim.py] does not contain (line 111
    leaves it as a TODO) and only [tests/test_sim.py] calls.  Following
    sections 4.4 and 7 of the specification: a non-positive [n] or
    [batchSize], or a [batchSize] above [n], is an [InvalidArgument]; the
    seed is split once into [n] streams; the streams are cut into
    consecutive groups of [batchSize]; the vectorised strategy is applied to
    each group; the group results are concatenated in group order. *)
Definition simSampleBatched {Key : Type} {RS : RandomSource Key}
    (State : Type) (key : Key) (n : Z) (x0 : State) (t0 deltat : pynum)
    (stepFun : StepFun Key State) (batchSize : Z) : result (list State) :=
  if ((n <? 1) || (batchSize <? 1) || (n <? batchSize))%bool
  then Raise InvalidArgument
  else
    keys <- split key n ;;
    let groups := chunks (Z.to_nat batchSize) keys in
    let vstep := jit (vmap (fun k => stepFun k x0 (Py t0) deltat)) in
    Ok (concat (List.map vstep groups)).

(** ** A concrete random source

    Keys are paths of split indices; child [i] of key [k] is [i :: k].  A
    negative count is rejected. *)

Definition path_split (k : list nat) (n : Z) : result (list (list nat)) :=
  if n <? 0 then Raise TypeError
  else Ok (List.map (fun i => i :: k) (seq 0 (Z.to_nat n))).

#[refine] Instance PathKeys : RandomSource (list nat) :=
  {| split := path_split |}.
Proof.
  - intros k n Hn. unfold path_split.
    destruct (Z.ltb_spec n 0); [lia | eexists; reflexivity].
  - intros k n ks. unfold path_split.
    destruct (Z.ltb_spec n 0); [discriminate |].
    intros [= <-]. rewrite length_map, length_seq. lia.
Defined.

(** A second source over the same keys, which agrees with the first on
    counts up to 4 and numbers the children from 1 on larger counts. *)
Definition path_split' (k : list nat) (n : Z) : result (list (list nat)) :=
  if n <? 0 then Raise TypeError
  else Ok (List.map (fun i => (if n <=? 4 then i else S i) :: k)
             (seq 0 (Z.to_nat n))).

#[refine] Instance PathKeys' : RandomSource (list nat) :=
  {| split := path_split' |}.
Proof.
  - intros k n Hn. unfold path_split'.
    destruct (Z.ltb_spec n 0); [lia | eexists; reflexivity].
  - intros k n ks. unfold path_split'.
    destruct (Z.ltb_spec n 0); [discriminate |].
    intros [= <-]. rewrite length_map, length_seq. lia.
Defined.

(** The step function that returns its state argument unchanged. *)
Definition stepId {Key State : Type} : StepFun Key State :=
  fun _ x _ _ => x.

(** A step function that counts: it adds one to every component. *)
Definition stepIncr {Key : Type} : StepFun Key (list Z) :=
  fun _ x _ _ => List.map Z.succ x.

(** A step function that records the key and the time it was called with. *)
Definition stepLog : StepFun (list nat) (list (list nat * scalar)) :=
  fun k x t _ => x ++ [(k, t)].

(** * Properties *)

(** ** The combinators *)

Section ScanFacts.
Variables C X Y : Type.
Variable f : C -> X -> C * Y.

Lemma scan_cons (c : C) (x : X) (xs : list X) :
  scan f c (x :: xs) =
  (fst (scan f (fst (f c x)) xs),
   snd (f c x) :: snd (scan f (fst (f c x)) xs)).
Proof.
  simpl. destruct (f c x) as [c1 y]. simpl.
  destruct (scan f c1 xs). reflexivity.
Qed.

Lemma scan_length (xs : list X) :
  forall c, length (snd (scan f c xs)) = length xs.
Proof.
  induction xs as [|x xs IH]; intros c; [reflexivity |].
  rewrite scan_cons. simpl. now rewrite IH.
Qed.


Lemma scan_app (xs ys : list X) :
  forall c,
    scan f c (xs ++ ys) =
    (fst (scan f (fst (scan f c xs)) ys),
     snd (scan f c xs) ++ snd (scan f (fst (scan f c xs)) ys)).
Proof.
  induction xs as [|x xs IH]; intros c.
  - simpl. now destruct (scan f c ys).
  - rewrite <- app_comm_cons, !scan_cons, IH. reflexivity.
Qed.
End ScanFacts.


Lemma lax_map_is_map {X Y : Type} (f : X -> Y) (xs : list X) :
  lax_map f xs = List.map f xs.
Proof.
  unfold lax_map. induction xs as [|x xs IH]; [reflexivity |].
  rewrite scan_cons. simpl. now rewrite IH.
Qed.


Lemma last_cons_default {A : Type} (l : list A) :
  forall a d, last (a :: l) d = last l a.
Proof.
  induction l as [|b l IH]; intros a d; [reflexivity |].
  change (last (a :: b :: l) d) with (last (b :: l) d).
  now rewrite !IH.
Qed.

(** ** Integer arithmetic of line 50 and of the carry *)

Lemma in_int32b_true (z : Z) : in_int32 z -> in_int32b z = true.
Proof.
  unfold in_int32, in_int32b. intros [Hlo Hhi].
  apply andb_true_intro. split; [now apply Z.leb_le | now apply Z.ltb_lt].
Qed.

Lemma wrap32_id (z : Z) : in_int32 z -> wrap32 z = z.
Proof.
  unfold in_int32, wrap32. intros H.
  rewrite Z.mod_small by lia. lia.
Qed.

Lemma wrap32_add (x d : Z) : wrap32 (wrap32 x + d) = wrap32 (x + d).
Proof.
  unfold wrap32.
  replace ((x + 2 ^ 31) mod 2 ^ 32 - 2 ^ 31 + d + 2 ^ 31)
    with ((x + 2 ^ 31) mod 2 ^ 32 + d) by lia.
  rewrite Zplus_mod_idemp_l. f_equal. f_equal. lia.
Qed.

Lemma step_count_int (a b d : Z) :
  d <> 0 ->
  step_count (PyInt a) (PyInt b) (PyInt d) = Ok ((b - a) / d + 1).
Proof.
  intros Hd. unfold step_count. cbn [py_sub bind py_floordiv].
  destruct (Z.eqb_spec d 0); [contradiction | reflexivity].
Qed.

Lemma carry_init_int (a d : Z) :
  in_int32 a -> in_int32 d ->
  carry_init (PyInt a) (PyInt d) = Ok (Int32 a).
Proof.
  intros Ha Hd. unfold carry_init, int32_of_py.
  now rewrite !in_int32b_true.
Qed.

Lemma carried_time_succ (c : jaxnum) (dt : pynum) (i : nat) :
  carried_time c dt (S i) = carried_time (carry_add c dt) dt i.
Proof. unfold carried_time. apply Nat.iter_succ_r. Qed.

(** Int times are carried modulo [2^32]. *)
Lemma carried_time_int (a d : Z) (i : nat) :
  in_int32 a ->
  carried_time (Int32 a) (PyInt d) i = Int32 (wrap32 (a + Z.of_nat i * d)).
Proof.
  intros Ha. induction i as [|i IH].
  - cbn. rewrite Z.add_0_r. now rewrite wrap32_id.
  - change (carried_time (Int32 a) (PyInt d) (S i))
      with (carry_add (carried_time (Int32 a) (PyInt d) i) (PyInt d)).
    rewrite IH. cbn [carry_add].
    rewrite wrap32_add. f_equal. f_equal. lia.
Qed.

(** ** The trajectory scanner *)

Section ScannerFacts.
Context {Key : Type} {RS : RandomSource Key}.
Variable State : Type.
Variable dt : pynum.
Variable stepFun : StepFun Key State.

Lemma advance_fst (x : State) (t : jaxnum) (k : Key) :
  fst (advance dt stepFun (x, t) k) = (stepFun k x (Jax t) dt, carry_add t dt).
Proof. reflexivity. Qed.

Lemma advance_snd (x : State) (t : jaxnum) (k : Key) :
  snd (advance dt stepFun (x, t) k) = stepFun k x (Jax t) dt.
Proof. reflexivity. Qed.

Lemma simTs_unfold (key : Key) (x0 : State) (t0 tt : pynum)
    (n : Z) (keys : list Key) (c : jaxnum) :
  step_count t0 tt dt = Ok n ->
  split key n = Ok keys ->
  carry_init t0 dt = Ok c ->
  simTs key x0 t0 tt dt stepFun =
  Ok (snd (scan (advance dt stepFun) (x0, c) keys)).
Proof.
  intros Hn Hk Hc. unfold simTs. rewrite Hn. cbn [bind]. rewrite Hk.
  cbn [bind]. rewrite Hc. cbn [bind].
  destruct (scan (advance dt stepFun) (x0, c) keys). reflexivity.
Qed.

Lemma simTs_call_times_unfold (key : Key) (x0 : State) (t0 tt : pynum)
    (n : Z) (keys : list Key) (c : jaxnum) :
  step_count t0 tt dt = Ok n ->
  split key n = Ok keys ->
  carry_init t0 dt = Ok c ->
  simTs_call_times key x0 t0 tt dt stepFun =
  Ok (List.map snd (carries_in (advance dt stepFun) (x0, c) keys)).
Proof.
  intros Hn Hk Hc. unfold simTs_call_times. rewrite Hn. cbn [bind].
  rewrite Hk. cbn [bind]. now rewrite Hc.
Qed.

(** A run that returns went through all three stages. *)
Lemma simTs_inv (key : Key) (x0 : State) (t0 tt : pynum) (mat : list State) :
  simTs key x0 t0 tt dt stepFun = Ok mat ->
  exists n keys c,
    step_count t0 tt dt = Ok n /\
    split key n = Ok keys /\
    carry_init t0 dt = Ok c /\
    mat = snd (scan (advance dt stepFun) (x0, c) keys).
Proof.
  unfold simTs. intros H.
  destruct (step_count t0 tt dt) as [n|e]; [| discriminate]. cbn [bind] in H.
  destruct (split key n) as [keys|e] eqn:Hk; [| discriminate].
  cbn [bind] in H.
  destruct (carry_init t0 dt) as [c|e]; [| discriminate]. cbn [bind] in H.
  exists n, keys, c.
  split; [reflexivity |]. split; [exact Hk |]. split; [reflexivity |].
  destruct (scan (advance dt stepFun) (x0, c) keys). now injection H as <-.
Qed.

(** A property of states that every step keeps holds of every row. *)
Lemma scan_advance_Forall (P : State -> Prop) :
  (forall k x t, P x -> P (stepFun k x t dt)) ->
  forall keys x t, P x ->
    Forall P (snd (scan (advance dt stepFun) (x, t) keys)).
Proof.
  intros Hstep keys. induction keys as [|k keys IH]; intros x t Hx.
  - constructor.
  - rewrite scan_cons, advance_fst, advance_snd. simpl.
    constructor; [now apply Hstep |]. apply IH. now apply Hstep.
Qed.

(** Row [i] is the step function applied with key [i] to the state
    before it, at the time carried into step [i]. *)
Lemma scan_advance_nth (keys : list Key) :
  forall x t i k,
    nth_error keys i = Some k ->
    nth_error (snd (scan (advance dt stepFun) (x, t) keys)) i =
    Some (stepFun k
            (state_before x (snd (scan (advance dt stepFun) (x, t) keys)) i)
            (Jax (carried_time t dt i)) dt).
Proof.
  induction keys as [|k0 keys IH]; intros x t i k Hi.
  - destruct i; discriminate.
  - rewrite scan_cons, advance_fst, advance_snd. simpl snd.
    destruct i as [|j].
    + injection Hi as <-. reflexivity.
    + simpl in Hi. simpl nth_error. rewrite (IH _ _ _ _ Hi).
      rewrite carried_time_succ. f_equal. f_equal.
      destruct j as [|j']; [reflexivity |]. simpl.
      apply nth_indep. rewrite scan_length.
      assert (S j' < length keys)%nat by (apply nth_error_Some; congruence).
      lia.
Qed.


(** The carry that [simTs] discards: the last row (or [x] when there is
    none) and the time after the last step. *)
Lemma scan_advance_final (keys : list Key) :
  forall x t,
    fst (scan (advance dt stepFun) (x, t) keys) =
    (last (snd (scan (advance dt stepFun) (x, t) keys)) x,
     carried_time t dt (length keys)).
Proof.
  induction keys as [|k keys IH]; intros x t.
  - reflexivity.
  - rewrite scan_cons, advance_fst, advance_snd. cbn [fst snd].
    rewrite IH, last_cons_default. cbn [length].
    now rewrite carried_time_succ.
Qed.
End ScannerFacts.

(** ** The concrete scenario of [test_simts] *)

(** With the float [0.1] line 50 gives 100 steps: [10 // 0.1] is [99.0]. *)
Lemma step_count_10_float_tenth :
  step_count (PyInt 0) (PyInt 10) (PyFloat f64_0_1) = Ok 100.
Proof. vm_compute. reflexivity. Qed.

(** On the rationals the floor of the quotient is 99 as well, because the
    float [0.1] is larger than one tenth; with exactly one tenth it would
    be 100. *)
Lemma exact_floor_10_float_tenth :
  exact_floor (PyInt 0) (PyInt 10) (PyFloat f64_0_1) = Some 99 /\
  Qfloor ((10 - 0) / (1 # 10)) = 100.
Proof. split; vm_compute; reflexivity. Qed.

(** C4, as stated, fails: for [x0 = [50, 100]], [t0 = 0], [tt = 10],
    [dt = 0.1] and the identity step, [simTs] does not return 101 rows. *)
Lemma simTs_float_tenth_not_101_rows :
  ~ exists mat,
      simTs (RS := PathKeys) [] [50; 100] (PyInt 0) (PyInt 10)
        (PyFloat f64_0_1) stepId = Ok mat /\
      length mat = 101%nat /\
      Forall (eq [50; 100]) mat.
Proof.
  intros (mat & Hrun & Hlen & _).
  assert (E : simTs (RS := PathKeys) [] [50; 100] (PyInt 0) (PyInt 10)
                (PyFloat f64_0_1) stepId =
              Ok (repeat [50; 100] 100)) by (vm_compute; reflexivity).
  rewrite E in Hrun. injection Hrun as <-.
  vm_compute in Hlen. discriminate.
Qed.

(** C4, amended.  For [x0 = [50, 100]], [t0 = 0], [tt = 10], [dt] the float
    [0.1] and the identity step, [simTs] returns exactly 100 rows, every
    row equal to [[50, 100]], whatever the seed. *)
Theorem simTs_float_tenth_100_rows {Key : Type} {RS : RandomSource Key}
    (key : Key) :
  exists mat,
    simTs key [50; 100] (PyInt 0) (PyInt 10) (PyFloat f64_0_1) stepId =
      Ok mat /\
    length mat = 100%nat /\
    Forall (eq [50; 100]) mat.
Proof.
  destruct (split_nonneg key (n := 100)) as [keys Hk]; [lia |].
  eexists. split; [| split].
  - apply simTs_unfold with (n := 100) (keys := keys);
      [apply step_count_10_float_tenth | exact Hk | reflexivity].
  - rewrite scan_length. apply split_length in Hk. lia.
  - apply scan_advance_Forall; [| reflexivity].
    intros k x t Hx. exact Hx.
Qed.

(** ** The ensemble samplers *)

(** C8.  For [n >= 1], [simSample] returns [n] rows and row [i] is
    [stepFun(key_i, x0, t0, deltat)], where [key_i] is the [i]-th child of
    the seed; every call is made on the same [(x0, t0, deltat)]. *)
Theorem simSample_rows {Key : Type} {RS : RandomSource Key} (State : Type)
    (key : Key) (n : Z) (x0 : State) (t0 deltat : pynum)
    (stepFun : StepFun Key State) :
  1 <= n ->
  exists keys ens,
    split key n = Ok keys /\
    simSample key n x0 t0 deltat stepFun = Ok ens /\
    Z.of_nat (length keys) = n /\
    length ens = length keys /\
    forall i : nat,
      nth_error ens i =
      option_map (fun k => stepFun k x0 (Py t0) deltat) (nth_error keys i).
Proof.
  intros Hn.
  destruct (split_nonneg key (n := n)) as [keys Hk]; [lia |].
  exists keys, (List.map (fun k => stepFun k x0 (Py t0) deltat) keys).
  split; [exact Hk |]. split; [| split; [| split]].
  - unfold simSample. now rewrite Hk.
  - now apply split_length in Hk.
  - apply length_map.
  - intros i. apply nth_error_map.
Qed.

Lemma simSample_rows_witness :
  simSample (RS := PathKeys) [] 3 [] (PyInt 0) (PyInt 30) stepLog =
  Ok [ [([0%nat], Py (PyInt 0))]; [([1%nat], Py (PyInt 0))];
       [([2%nat], Py (PyInt 0))] ].
Proof.
  destruct (simSample_rows (RS := PathKeys) [] (n := 3) []
              (PyInt 0) (PyInt 30) stepLog)
    as (keys & ens & Hk & Hrun & _ & Hlen & Hrow); [lia |].
  rewrite Hrun. injection Hk as <-.
  do 4 (destruct ens as [|? ens]; try discriminate Hlen).
  pose proof (Hrow 0%nat) as H0. pose proof (Hrow 1%nat) as H1.
  pose proof (Hrow 2%nat) as H2.
  injection H0 as ->. injection H1 as ->. injection H2 as ->.
  reflexivity.
Defined.

(** C2.  [simSample] (through [jax.vmap]) and [simSampleMap] (through
    [jax.lax.map]) return the same ensemble for the same seed, [n], [x0],
    [t0], [deltat] and step function: both split the seed into the same
    children and apply the step function to them in index order. *)
Theorem simSample_simSampleMap {Key : Type} {RS : RandomSource Key}
    (State : Type) (key : Key) (n : Z) (x0 : State) (t0 deltat : pynum)
    (stepFun : StepFun Key State) :
  simSample key n x0 t0 deltat stepFun =
  simSampleMap key n x0 t0 deltat stepFun.
Proof.
  unfold simSample, simSampleMap, jit, vmap.
  destruct (split key n) as [keys|e]; cbn [bind]; [| reflexivity].
  now rewrite lax_map_is_map.
Qed.

(** ** Batching *)

Lemma concat_chunks {A : Type} (b : nat) (l : list A) :
  (1 <= b)%nat -> concat (chunks b l) = l.
Proof.
  funelim (chunks b l); intros Hb; simp chunks.
  - reflexivity.
  - lia.
  - cbn [concat app]. rewrite H by lia. now rewrite firstn_skipn.
Qed.

Lemma chunks_sizes {A : Type} (b : nat) (l : list A) :
  Forall (fun g => 1 <= length g <= b)%nat (chunks b l).
Proof.
  funelim (chunks b l); simp chunks; constructor; [| assumption].
  cbn [length]. pose proof (firstn_le_length b l).
  rewrite length_firstn. lia.
Qed.

(** C1.  For [n >= 1] and [1 <= batchSize <= n] the batched sampler returns
    exactly the ensemble of [simSample] on the same seed, [n], [x0], [t0],
    [deltat] and step function, and that ensemble has [n] rows. *)
Theorem simSampleBatched_simSample {Key : Type} {RS : RandomSource Key}
    (State : Type) (key : Key) (n : Z) (x0 : State) (t0 deltat : pynum)
    (stepFun : StepFun Key State) (batchSize : Z) :
  1 <= n -> 1 <= batchSize <= n ->
  simSampleBatched key n x0 t0 deltat stepFun batchSize =
  simSample key n x0 t0 deltat stepFun /\
  exists ens,
    simSample key n x0 t0 deltat stepFun = Ok ens /\
    Z.of_nat (length ens) = n.
Proof.
  intros Hn Hb.
  destruct (split_nonneg key (n := n)) as [keys Hk]; [lia |].
  assert (Hs : simSample key n x0 t0 deltat stepFun =
               Ok (List.map (fun k => stepFun k x0 (Py t0) deltat) keys))
    by (unfold simSample; now rewrite Hk).
  split.
  - rewrite Hs. unfold simSampleBatched.
    destruct (Z.ltb_spec n 1); [lia |].
    destruct (Z.ltb_spec batchSize 1); [lia |].
    destruct (Z.ltb_spec n batchSize); [lia |].
    cbn [orb]. rewrite Hk. cbn [bind]. unfold jit, vmap.
    rewrite <- concat_map, concat_chunks by lia. reflexivity.
  - eexists. split; [exact Hs |].
    rewrite length_map. now apply split_length in Hk.
Qed.

Lemma simSampleBatched_simSample_witness :
  simSampleBatched (RS := PathKeys) [] 20 [50; 100] (PyInt 0) (PyInt 10)
    stepIncr 5 =
  simSample (RS := PathKeys) [] 20 [50; 100] (PyInt 0) (PyInt 10) stepIncr.
Proof.
  apply (simSampleBatched_simSample (RS := PathKeys) [] (n := 20)
           [50; 100] (PyInt 0) (PyInt 10) stepIncr (batchSize := 5)); lia.
Defined.

(** The batches of [test_simsamples]: 20 streams in groups of 5, and an
    uneven split. *)
Example chunks_20_by_5 :
  List.map (@length nat) (chunks 5 (seq 0 20)) = [5; 5; 5; 5]%nat.
Proof. vm_compute. reflexivity. Qed.

Example chunks_7_by_3 :
  chunks 3 [1; 2; 3; 4; 5; 6; 7]%nat = [[1; 2; 3]; [4; 5; 6]; [7]]%nat.
Proof. vm_compute. reflexivity. Qed.

(** ** Invariants of the state *)

(** X3.  A property of states that holds of [x0] and that every step
    keeps holds of every row of a trajectory of [simTs] and of every row of
    an ensemble of [simSample] or [simSampleMap]. *)
Theorem drivers_keep_invariant {Key : Type} {RS : RandomSource Key}
    (State : Type) (P : State -> Prop) (key : Key) (n : Z) (x0 : State)
    (t0 tt dt : pynum) (stepFun : StepFun Key State) :
  P x0 ->
  (forall k x t d, P x -> P (stepFun k x t d)) ->
  (forall mat, simTs key x0 t0 tt dt stepFun = Ok mat -> Forall P mat) /\
  (forall ens, simSample key n x0 t0 dt stepFun = Ok ens -> Forall P ens) /\
  (forall ens, simSampleMap key n x0 t0 dt stepFun = Ok ens -> Forall P ens).
Proof.
  intros Hx0 Hstep. split; [| split].
  - intros mat Hrun.
    destruct (simTs_inv _ _ _ _ _ _ Hrun) as (m & keys & c & _ & _ & _ & ->).
    apply scan_advance_Forall; [| exact Hx0].
    intros k x t Hx. now apply Hstep.
  - unfold simSample, jit, vmap.
    destruct (split key n) as [keys|e]; [| discriminate]. cbn [bind].
    intros ens [= <-]. apply Forall_map, Forall_forall.
    intros k _. now apply Hstep.
  - unfold simSampleMap.
    destruct (split key n) as [keys|e]; [| discriminate]. cbn [bind].
    intros ens [= <-]. rewrite lax_map_is_map.
    apply Forall_map, Forall_forall. intros k _. now apply Hstep.
Qed.

Lemma drivers_keep_invariant_witness :
  Forall (Forall (fun z => 0 <= z))
    [[51; 101]; [52; 102]; [53; 103]; [54; 104]].
Proof.
  refine (proj1 (@drivers_keep_invariant (list nat) PathKeys (list Z)
                   (Forall (fun z => 0 <= z)) [] 3 [50; 100]
                   (PyInt 0) (PyInt 10) (PyInt 3) stepIncr _ _) _ _).
  - repeat constructor; lia.
  - intros k x t d Hx. unfold stepIncr. apply Forall_map.
    apply Forall_impl with (2 := Hx). intros z Hz. lia.
  - vm_compute. reflexivity.
Defined.

(** ** The step count *)

(** For float times line 50 does not compute the floor of the exact
    quotient: over [0.1, 0.5] with [dt = 0.1] the floor is 3, the count 5;
    over [0.1, 1.1] the floor is 10, the count 10. *)
Lemma step_count_float_examples :
  step_count (PyFloat f64_0_1) (PyFloat f64_0_5) (PyFloat f64_0_1) = Ok 5 /\
  exact_floor (PyFloat f64_0_1) (PyFloat f64_0_5) (PyFloat f64_0_1) = Some 3 /\
  step_count (PyFloat f64_0_1) (PyFloat f64_1_1) (PyFloat f64_0_1) = Ok 10 /\
  exact_floor (PyFloat f64_0_1) (PyFloat f64_1_1) (PyFloat f64_0_1) = Some 10.
Proof. repeat split; vm_compute; reflexivity. Qed.

(** C3, as stated, fails: for [t0 = 0.1], [tt = 0.5], [dt = 0.1] the
    trajectory does not have [floor((tt - t0) / dt) + 1 = 4] rows (it has
    5), and for [tt = 1.1] it does not have 11 rows (it has 10). *)
Lemma simTs_float_rows_not_exact_floor :
  exact_floor (PyFloat f64_0_1) (PyFloat f64_0_5) (PyFloat f64_0_1) = Some 3 /\
  (~ exists mat,
       simTs (RS := PathKeys) [] [50; 100] (PyFloat f64_0_1) (PyFloat f64_0_5)
         (PyFloat f64_0_1) stepId = Ok mat /\
       Z.of_nat (length mat) = 3 + 1) /\
  exact_floor (PyFloat f64_0_1) (PyFloat f64_1_1) (PyFloat f64_0_1) = Some 10 /\
  (~ exists mat,
       simTs (RS := PathKeys) [] [50; 100] (PyFloat f64_0_1) (PyFloat f64_1_1)
         (PyFloat f64_0_1) stepId = Ok mat /\
       Z.of_nat (length mat) = 10 + 1).
Proof.
  split; [vm_compute; reflexivity |]. split.
  - intros (mat & Hrun & Hlen). vm_compute in Hrun. injection Hrun as <-.
    vm_compute in Hlen. discriminate.
  - split; [vm_compute; reflexivity |].
    intros (mat & Hrun & Hlen). vm_compute in Hrun. injection Hrun as <-.
    vm_compute in Hlen. discriminate.
Qed.

(** C3, amended.  With a step function that keeps the length of the
    state: whenever line 50 yields a count [n >= 0] and the times fit the
    carry of the scan, [simTs] returns exactly [n] rows, each as long as
    [x0]; for Python ints [t0 < tt], [dt > 0] that fit [int32] this count
    is [floor((tt - t0) / dt) + 1]. *)
Theorem simTs_length_and_dims {Key : Type} {RS : RandomSource Key} (A : Type)
    (key : Key) (x0 : list A) (t0 tt dt : pynum)
    (stepFun : StepFun Key (list A)) :
  (forall k x t d, length (stepFun k x t d) = length x) ->
  (forall n c,
     step_count t0 tt dt = Ok n -> 0 <= n -> carry_init t0 dt = Ok c ->
     exists mat,
       simTs key x0 t0 tt dt stepFun = Ok mat /\
       Z.of_nat (length mat) = n /\
       Forall (fun row => length row = length x0) mat) /\
  (forall a b d,
     t0 = PyInt a -> tt = PyInt b -> dt = PyInt d ->
     a < b -> 0 < d -> in_int32 a -> in_int32 d ->
     exists mat,
       simTs key x0 t0 tt dt stepFun = Ok mat /\
       Z.of_nat (length mat) = (b - a) / d + 1 /\
       Forall (fun row => length row = length x0) mat).
Proof.
  intros Hdim.
  assert (Hgen : forall n c,
     step_count t0 tt dt = Ok n -> 0 <= n -> carry_init t0 dt = Ok c ->
     exists mat,
       simTs key x0 t0 tt dt stepFun = Ok mat /\
       Z.of_nat (length mat) = n /\
       Forall (fun row => length row = length x0) mat).
  { intros n c Hn Hpos Hc.
    destruct (split_nonneg key Hpos) as [keys Hk].
    eexists. split; [now apply simTs_unfold with (n := n) (keys := keys) (c := c) |].
    split.
    - rewrite scan_length. now apply split_length in Hk.
    - apply scan_advance_Forall; [| reflexivity].
      intros k x t Hx. now rewrite Hdim. }
  split; [exact Hgen |].
  intros a b d -> -> -> Hab Hd Ha Hd32.
  apply Hgen with (c := Int32 a).
  - apply step_count_int. lia.
  - pose proof (Z.div_pos (b - a) d). lia.
  - now apply carry_init_int.
Qed.

Lemma simTs_length_and_dims_witness :
  (exists mat,
     simTs (RS := PathKeys) [] [50; 100] (PyInt 0) (PyInt 10) (PyInt 3)
       stepIncr = Ok mat /\
     Z.of_nat (length mat) = 4 /\
     Forall (fun row => length row = 2%nat) mat) /\
  (exists mat,
     simTs (RS := PathKeys) [] [50; 100] (PyFloat f64_0_1) (PyFloat f64_0_5)
       (PyFloat f64_0_1) stepIncr = Ok mat /\
     Z.of_nat (length mat) = 5 /\
     Forall (fun row => length row = 2%nat) mat).
Proof.
  split.
  - refine (proj2 (@simTs_length_and_dims (list nat) PathKeys Z []
                     [50; 100] (PyInt 0) (PyInt 10) (PyInt 3) stepIncr _)
              0 10 3 eq_refl eq_refl eq_refl _ _ _ _).
    + intros k x t d. apply length_map.
    + lia.
    + lia.
    + unfold in_int32. lia.
    + unfold in_int32. lia.
  - refine (proj1 (@simTs_length_and_dims (list nat) PathKeys Z []
                     [50; 100] (PyFloat f64_0_1) (PyFloat f64_0_5)
                     (PyFloat f64_0_1) stepIncr _)
              5 (Float32 (f32_of_f64 f64_0_1)) _ _ _).
    + intros k x t d. apply length_map.
    + vm_compute. reflexivity.
    + lia.
    + reflexivity.
Defined.

(** ** Grid times *)

(** On a valid int grid the scan is reached with [(tt - t0) / dt + 1]
    keys. *)
Lemma simTs_int_valid {Key : Type} {RS : RandomSource Key} (State : Type)
    (key : Key) (x0 : State) (a b d : Z) (stepFun : StepFun Key State) :
  a < b -> 0 < d -> in_int32 a -> in_int32 d ->
  0 <= (b - a) / d /\
  exists keys,
    split key ((b - a) / d + 1) = Ok keys /\
    length keys = S (Z.to_nat ((b - a) / d)) /\
    simTs key x0 (PyInt a) (PyInt b) (PyInt d) stepFun =
      Ok (snd (scan (advance (PyInt d) stepFun) (x0, Int32 a) keys)) /\
    simTs_call_times key x0 (PyInt a) (PyInt b) (PyInt d) stepFun =
      Ok (List.map snd
            (carries_in (advance (PyInt d) stepFun) (x0, Int32 a) keys)).
Proof.
  intros Hab Hd Ha Hd32.
  assert (Hq : 0 <= (b - a) / d) by (apply Z.div_pos; lia).
  split; [exact Hq |].
  destruct (split_nonneg key (n := (b - a) / d + 1)) as [keys Hk]; [lia |].
  exists keys. split; [exact Hk |]. split; [| split].
  - apply split_length in Hk. lia.
  - apply simTs_unfold with (n := (b - a) / d + 1); try assumption.
    + apply step_count_int. lia.
    + now apply carry_init_int.
  - apply simTs_call_times_unfold with (n := (b - a) / d + 1); try assumption.
    + apply step_count_int. lia.
    + now apply carry_init_int.
Qed.

(** Grid times between [a] and [b] stay inside [int32]. *)
Lemma grid_time_in_range (a b d : Z) (i : nat) :
  a < b -> 0 < d -> in_int32 a -> in_int32 b ->
  Z.of_nat i <= (b - a) / d ->
  in_int32 (a + Z.of_nat i * d).
Proof.
  unfold in_int32. intros Hab Hd Ha Hb Hi.
  pose proof (Z.mul_div_le (b - a) d Hd).
  assert (Z.of_nat i * d <= (b - a) / d * d) by nia.
  lia.
Qed.




(** ** The recurrence *)

(** C6, as stated, fails: for [t0 = 0], [tt = 0.4], [dt = 0.1] the second
    call of the step function (recorded by [stepLog] in row 1) receives the
    float32 number [0.100000001490116...], which is not [t0 + 1 * dt]. *)
Lemma simTs_float_call_time_not_t0_plus_i_dt :
  exists mat row t,
    simTs (RS := PathKeys) [] [] (PyInt 0) (PyFloat f64_0_4)
      (PyFloat f64_0_1) stepLog = Ok mat /\
    nth_error mat 1 = Some row /\
    nth_error row 1 = Some ([1%nat], t) /\
    t = Jax (Float32 (S754_finite false 13421773 (-27))) /\
    ~ same_value (scalar_value t)
        (option_map (fun v => 0 + 1 * v)%Q (pynum_value (PyFloat f64_0_1))).
Proof.
  eexists. eexists. eexists.
  split; [vm_compute; reflexivity |].
  split; [reflexivity |]. split; [reflexivity |]. split; [reflexivity |].
  vm_compute. discriminate.
Qed.

(** C6, amended.  Whenever [simTs] returns [mat], row [i] is
    [stepFun(key_i, x_i, t_i, dt)] with [key_i] the [i]-th child of the
    seed, [x_0 = x0], [x_(i+1) = mat[i]] and [t_i] the time carried by the
    scan: [t0] converted to the 32-bit carry and advanced [i] times by
    [dt].  For Python ints [t0 < tt], [dt > 0] that fit [int32], [simTs]
    returns, and [t_i = t0 + i * dt].  Row 0 is the state after the first
    step; [x0] itself is not recorded. *)
Theorem simTs_recurrence {Key : Type} {RS : RandomSource Key} (State : Type)
    (key : Key) (x0 : State) (t0 tt dt : pynum) (stepFun : StepFun Key State) :
  (forall mat,
     simTs key x0 t0 tt dt stepFun = Ok mat ->
     exists n keys c,
       step_count t0 tt dt = Ok n /\
       split key n = Ok keys /\
       carry_init t0 dt = Ok c /\
       length mat = length keys /\
       forall i k, nth_error keys i = Some k ->
         nth_error mat i =
         Some (stepFun k (state_before x0 mat i)
                 (Jax (carried_time c dt i)) dt)) /\
  (forall a b d,
     t0 = PyInt a -> tt = PyInt b -> dt = PyInt d ->
     a < b -> 0 < d -> in_int32 a -> in_int32 b -> in_int32 d ->
     exists keys mat,
       split key ((b - a) / d + 1) = Ok keys /\
       simTs key x0 t0 tt dt stepFun = Ok mat /\
       length mat = length keys /\
       (forall i k, nth_error keys i = Some k ->
          nth_error mat i =
          Some (stepFun k (state_before x0 mat i)
                  (Jax (Int32 (a + Z.of_nat i * d))) dt)) /\
       (exists k0, nth_error keys 0 = Some k0 /\
          nth_error mat 0 = Some (stepFun k0 x0 (Jax (Int32 a)) dt))).
Proof.
  split.
  - intros mat Hrun.
    destruct (simTs_inv _ _ _ _ _ _ Hrun) as (n & keys & c & Hn & Hk & Hc & ->).
    exists n, keys, c. repeat split; try assumption.
    + apply scan_length.
    + intros i k Hi. now apply scan_advance_nth.
  - intros a b d -> -> -> Hab Hd Ha Hb Hd32.
    destruct (simTs_int_valid key x0 stepFun Hab Hd Ha Hd32)
      as (Hq & keys & Hk & Hlen & Hrun & _).
    exists keys, (snd (scan (advance (PyInt d) stepFun) (x0, Int32 a) keys)).
    split; [exact Hk |]. split; [exact Hrun |].
    split; [apply scan_length |]. split.
    + intros i k Hi. rewrite scan_advance_nth with (k := k) by exact Hi.
      rewrite carried_time_int by assumption.
      rewrite wrap32_id; [reflexivity |].
      apply grid_time_in_range with (b := b); try assumption.
      assert (i < length keys)%nat by (apply nth_error_Some; congruence).
      lia.
    + destruct keys as [|k0 keys]; [discriminate Hlen |].
      exists k0. split; [reflexivity |]. now rewrite scan_cons.
Qed.

Lemma simTs_recurrence_witness :
  simTs (RS := PathKeys) [] [] (PyInt 0) (PyInt 10) (PyInt 3) stepLog =
  Ok [ [([0%nat], Jax (Int32 0))];
       [([0%nat], Jax (Int32 0)); ([1%nat], Jax (Int32 3))];
       [([0%nat], Jax (Int32 0)); ([1%nat], Jax (Int32 3));
        ([2%nat], Jax (Int32 6))];
       [([0%nat], Jax (Int32 0)); ([1%nat], Jax (Int32 3));
        ([2%nat], Jax (Int32 6)); ([3%nat], Jax (Int32 9))] ].
Proof.
  destruct (proj2 (@simTs_recurrence (list nat) PathKeys _ [] []
                     (PyInt 0) (PyInt 10) (PyInt 3) stepLog)
              0 10 3 eq_refl eq_refl eq_refl)
    as (keys & mat & Hk & Hrun & Hlen & Hrec & _);
    try (unfold in_int32; lia).
  rewrite Hrun. injection Hk as <-.
  do 5 (destruct mat as [|? mat]; try discriminate Hlen).
  pose proof (Hrec 0%nat _ eq_refl) as H0.
  pose proof (Hrec 1%nat _ eq_refl) as H1.
  pose proof (Hrec 2%nat _ eq_refl) as H2.
  pose proof (Hrec 3%nat _ eq_refl) as H3.
  cbn [nth_error state_before nth] in H0, H1, H2, H3.
  injection H0 as ->. injection H1 as ->. injection H2 as ->. injection H3 as ->.
  reflexivity.
Defined.

(** ** Grids that the specification calls invalid *)

Lemma py_floordiv_zero (v dt : pynum) :
  dt = PyInt 0 \/ (exists s, dt = PyFloat (S754_zero s)) ->
  py_floordiv v dt = Raise ZeroDivisionError \/
  py_floordiv v dt = Raise OverflowError.
Proof.
  intros [-> | [s ->]].
  - destruct v as [z|f]; [left; reflexivity |]. left. reflexivity.
  - destruct v as [z|f]; [| left; reflexivity].
    unfold py_floordiv, to_float.
    destruct (f64_of_Z z); cbn [bind is_zero]; auto.
Qed.

(** C7, as stated, fails: with [tt = t0 = 0] and [dt = 1] nothing is raised;
    the step function is called once and its result is the one row. *)
Lemma simTs_accepts_tt_eq_t0 :
  simTs (RS := PathKeys) [] [50; 100] (PyInt 0) (PyInt 0) (PyInt 1)
    stepIncr = Ok [[51; 101]] /\
  simTs (RS := PathKeys) [] [50; 100] (PyInt 0) (PyInt 0) (PyInt 1)
    stepIncr <> Raise InvalidArgument.
Proof.
  split; [vm_compute; reflexivity |]. vm_compute. discriminate.
Qed.

(** C7, amended.  With [dt = 0] (the int [0] or a float zero) line 50
    raises before any step: [ZeroDivisionError], or [OverflowError] when an
    int operand is too large for a float.  A terminal time [tt <= t0] is
    not rejected: with Python ints [tt = t0] and [dt <> 0] that fit [int32]
    one step is made and its result is the only row. *)
Theorem simTs_invalid_grid {Key : Type} {RS : RandomSource Key} (State : Type)
    (key : Key) (x0 : State) (t0 tt dt : pynum) :
  (dt = PyInt 0 \/ (exists s, dt = PyFloat (S754_zero s)) ->
   exists e,
     (e = ZeroDivisionError \/ e = OverflowError) /\
     forall stepFun : StepFun Key State,
       simTs key x0 t0 tt dt stepFun = Raise e) /\
  (forall a d,
     t0 = PyInt a -> tt = PyInt a -> dt = PyInt d ->
     d <> 0 -> in_int32 a -> in_int32 d ->
     exists k0,
       split key 1 = Ok [k0] /\
       forall stepFun : StepFun Key State,
         simTs key x0 t0 tt dt stepFun =
         Ok [stepFun k0 x0 (Jax (Int32 a)) dt]).
Proof.
  split.
  - intros Hdt. unfold simTs, step_count.
    destruct (py_sub tt t0) as [v|e] eqn:Hsub; cbn [bind].
    + destruct (py_floordiv_zero v Hdt) as [E|E]; rewrite E; cbn [bind];
        eexists; (split; [| intros; reflexivity]); auto.
    + exists e. split; [| intros; reflexivity].
      right. unfold py_sub in Hsub.
      destruct tt as [b|fb], t0 as [a|fa]; try discriminate;
        cbn [to_float bind] in Hsub;
        repeat match type of Hsub with
               | context [f64_of_Z ?z] => destruct (f64_of_Z z)
               end;
        cbn [bind] in Hsub; congruence.
  - intros a d -> -> -> Hd Ha Hd32.
    destruct (split_nonneg key (n := 1)) as [keys Hk]; [lia |].
    pose proof (split_length _ _ Hk) as Hlen.
    destruct keys as [|k0 [|k1 keys]]; simpl in Hlen; try lia.
    exists k0. split; [exact Hk |]. intros stepFun.
    rewrite simTs_unfold with (n := 1) (keys := [k0]) (c := Int32 a).
    + reflexivity.
    + rewrite step_count_int by exact Hd. now rewrite Z.sub_diag.
    + exact Hk.
    + now apply carry_init_int.
Qed.

Lemma simTs_invalid_grid_witness :
  simTs (RS := PathKeys) [] [50; 100] (PyInt 0) (PyInt 10) (PyInt 0)
    stepIncr = Raise ZeroDivisionError /\
  simTs (RS := PathKeys) [] [50; 100] (PyInt 0) (PyInt 10)
    (PyFloat (S754_zero false)) stepIncr = Raise ZeroDivisionError /\
  simTs (RS := PathKeys) [] [50; 100] (PyInt 0) (PyInt 0) (PyInt 1)
    stepIncr = Ok [[51; 101]].
Proof.
  split; [| split].
  - destruct (proj1 (@simTs_invalid_grid (list nat) PathKeys (list Z) []
                       [50; 100] (PyInt 0) (PyInt 10) (PyInt 0)))
      as (e & _ & He); [left; reflexivity |].
    rewrite He. specialize (He stepIncr). vm_compute in He. exact (eq_sym He).
  - destruct (proj1 (@simTs_invalid_grid (list nat) PathKeys (list Z) []
                       [50; 100] (PyInt 0) (PyInt 10)
                       (PyFloat (S754_zero false))))
      as (e & _ & He); [right; eexists; reflexivity |].
    rewrite He. specialize (He stepIncr). vm_compute in He. exact (eq_sym He).
  - destruct (proj2 (@simTs_invalid_grid (list nat) PathKeys (list Z) []
                       [50; 100] (PyInt 0) (PyInt 0) (PyInt 1))
                0 1 eq_refl eq_refl eq_refl)
      as (k0 & Hk & Hrun); try (unfold in_int32; lia).
    rewrite Hrun. injection Hk as <-. reflexivity.
Defined.

(** ** Determinism *)



(** Where the two sources split differently the drivers differ. *)
Lemma drivers_follow_the_split :
  simTs (RS := PathKeys) [] [] (PyInt 0) (PyInt 12) (PyInt 3) stepLog <>
  simTs (RS := PathKeys') [] [] (PyInt 0) (PyInt 12) (PyInt 3) stepLog /\
  simSample (RS := PathKeys) [] 5 [] (PyInt 0) (PyInt 3) stepLog <>
  simSample (RS := PathKeys') [] 5 [] (PyInt 0) (PyInt 3) stepLog.
Proof. split; vm_compute; discriminate. Qed.

(** ** The terminal time *)

(** C10, as stated, fails: for [t0 = dt = 0.1] the terminal times [1.1] and
    [1.2] have the same [floor((tt - t0) / dt) = 10], and [simTs] returns
    10 rows for the first and 11 for the second. *)
Lemma simTs_equal_exact_floor_different_rows :
  exact_floor (PyFloat f64_0_1) (PyFloat f64_1_1) (PyFloat f64_0_1) =
  exact_floor (PyFloat f64_0_1) (PyFloat f64_1_2) (PyFloat f64_0_1) /\
  simTs (RS := PathKeys) [] [50; 100] (PyFloat f64_0_1) (PyFloat f64_1_1)
    (PyFloat f64_0_1) stepId <>
  simTs (RS := PathKeys) [] [50; 100] (PyFloat f64_0_1) (PyFloat f64_1_2)
    (PyFloat f64_0_1) stepId.
Proof. split; [vm_compute; reflexivity | vm_compute; discriminate]. Qed.

(** C10, amended.  The terminal time enters [simTs] only through the step
    count of line 50, [int((tt - t0) // dt) + 1] in Python's arithmetic:
    two terminal times with the same count give the same result, and two
    terminal times for which [simTs] returns the same trajectory have the
    same count. *)
Theorem simTs_tt_through_count {Key : Type} {RS : RandomSource Key}
    (State : Type) (key : Key) (x0 : State) (t0 tt1 tt2 dt : pynum)
    (stepFun : StepFun Key State) :
  (step_count t0 tt1 dt = step_count t0 tt2 dt ->
   simTs key x0 t0 tt1 dt stepFun = simTs key x0 t0 tt2 dt stepFun) /\
  (forall mat,
     simTs key x0 t0 tt1 dt stepFun = Ok mat ->
     simTs key x0 t0 tt2 dt stepFun = Ok mat ->
     step_count t0 tt1 dt = step_count t0 tt2 dt).
Proof.
  split.
  - intros Hn. unfold simTs. now rewrite Hn.
  - intros mat H1 H2.
    destruct (simTs_inv _ _ _ _ _ _ H1) as (n1 & ks1 & c1 & Hn1 & Hk1 & _ & E1).
    destruct (simTs_inv _ _ _ _ _ _ H2) as (n2 & ks2 & c2 & Hn2 & Hk2 & _ & E2).
    apply split_length in Hk1. apply split_length in Hk2.
    apply (f_equal (@length State)) in E1, E2.
    rewrite scan_length in E1, E2.
    rewrite Hn1, Hn2. f_equal. lia.
Qed.

Lemma simTs_tt_through_count_witness :
  simTs (RS := PathKeys) [] [50; 100] (PyFloat f64_0_1) (PyFloat f64_0_5)
    (PyFloat f64_0_1) stepIncr =
  simTs (RS := PathKeys) [] [50; 100] (PyFloat f64_0_1)
    (PyFloat (S754_finite false 4863887597560136 (-53)))
    (PyFloat f64_0_1) stepIncr.
Proof.
  apply (@simTs_tt_through_count (list nat) PathKeys).
  vm_compute. reflexivity.
Defined.

(** * Further properties of the drivers *)

(** ** Time-homogeneous steps *)

Lemma scan_advance_time_free {Key : Type} (State : Type)
    (dt : pynum) (stepFun : StepFun Key State) :
  (forall k x t t' d, stepFun k x t d = stepFun k x t' d) ->
  forall keys x t t',
    snd (scan (advance dt stepFun) (x, t) keys) =
    snd (scan (advance dt stepFun) (x, t') keys).
Proof.
  intros Hfree keys. induction keys as [|k keys IH]; intros x t t'.
  - reflexivity.
  - rewrite !scan_cons, !advance_fst, !advance_snd. cbn [snd].
    rewrite (Hfree k x (Jax t) (Jax t') dt). f_equal. apply IH.
Qed.

(** X4.  When the step function does not look at the time, [simTs] on
    Python int times depends on [t0] and [tt] only through [tt - t0]:
    moving both by the same int leaves the result unchanged, as long as
    [t0], the moved [t0] and [dt] fit [int32]. *)
Theorem simTs_time_shift {Key : Type} {RS : RandomSource Key} (State : Type)
    (key : Key) (x0 : State) (a b d s : Z) (stepFun : StepFun Key State) :
  (forall k x t t' d', stepFun k x t d' = stepFun k x t' d') ->
  in_int32 a -> in_int32 (a + s) -> in_int32 d ->
  simTs key x0 (PyInt (a + s)) (PyInt (b + s)) (PyInt d) stepFun =
  simTs key x0 (PyInt a) (PyInt b) (PyInt d) stepFun.
Proof.
  intros Hfree Ha Has Hd. unfold simTs, step_count.
  cbn [py_sub bind]. replace (b + s - (a + s)) with (b - a) by lia.
  destruct (py_floordiv (PyInt (b - a)) (PyInt d)) as [q|e]; [| reflexivity].
  cbn [bind]. destruct (py_int q) as [i|e]; [| reflexivity]. cbn [bind].
  destruct (split key (i + 1)) as [keys|e]; [| reflexivity]. cbn [bind].
  rewrite !carry_init_int by assumption. cbn [bind].
  pose proof (scan_advance_time_free (PyInt d) stepFun Hfree keys x0
                (Int32 (a + s)) (Int32 a)) as E.
  destruct (scan (advance (PyInt d) stepFun) (x0, Int32 (a + s)) keys).
  destruct (scan (advance (PyInt d) stepFun) (x0, Int32 a) keys).
  cbn [snd] in E. now rewrite E.
Qed.

Lemma simTs_time_shift_witness :
  simTs (RS := PathKeys) [] [50; 100] (PyInt (0 + 7)) (PyInt (10 + 7))
    (PyInt 3) stepIncr =
  simTs (RS := PathKeys) [] [50; 100] (PyInt 0) (PyInt 10) (PyInt 3)
    stepIncr.
Proof.
  apply (@simTs_time_shift (list nat) PathKeys);
    [intros k x t t' d'; reflexivity | unfold in_int32; lia ..].
Defined.

(** ** Int times wrap around *)



(** ** Continuing a trajectory *)

(** X8.  On Python int times a trajectory is continued by restarting from
    its last row at the time [t0 + n * dt], where [n] is its number of rows
    (and not at [tt]): the rows of the first run followed by the rows of the
    restarted run are the rows of one scan over the keys of the first run
    followed by the keys of the second. *)
Theorem simTs_restart {Key : Type} {RS : RandomSource Key} (State : Type)
    (key1 key2 : Key) (x0 : State) (a b1 b2 d : Z)
    (stepFun : StepFun Key State) :
  a < b1 -> 0 < d -> in_int32 a -> in_int32 d ->
  in_int32 (a + ((b1 - a) / d + 1) * d) ->
  a + ((b1 - a) / d + 1) * d < b2 ->
  exists keys1 keys2 mat1 mat2,
    split key1 ((b1 - a) / d + 1) = Ok keys1 /\
    split key2 ((b2 - (a + ((b1 - a) / d + 1) * d)) / d + 1) = Ok keys2 /\
    simTs key1 x0 (PyInt a) (PyInt b1) (PyInt d) stepFun = Ok mat1 /\
    simTs key2 (last mat1 x0) (PyInt (a + ((b1 - a) / d + 1) * d))
      (PyInt b2) (PyInt d) stepFun = Ok mat2 /\
    snd (scan (advance (PyInt d) stepFun) (x0, Int32 a) (keys1 ++ keys2)) =
      mat1 ++ mat2.
Proof.
  intros Hab Hd Ha Hd32 Hr Hb2.
  destruct (simTs_int_valid key1 x0 stepFun Hab Hd Ha Hd32)
    as (Hq & keys1 & Hk1 & Hlen1 & Hrun1 & _).
  set (mat1 := snd (scan (advance (PyInt d) stepFun) (x0, Int32 a) keys1)) in *.
  destruct (simTs_int_valid key2 (last mat1 x0) stepFun Hb2 Hd Hr Hd32)
    as (_ & keys2 & Hk2 & _ & Hrun2 & _).
  exists keys1, keys2, mat1. eexists.
  split; [exact Hk1 |]. split; [exact Hk2 |]. split; [exact Hrun1 |].
  split; [exact Hrun2 |].
  rewrite scan_app. cbn [snd]. fold mat1. f_equal.
  rewrite scan_advance_final. fold mat1.
  rewrite carried_time_int by assumption. rewrite Hlen1.
  rewrite Nat2Z.inj_succ, Z2Nat.id by assumption. unfold Z.succ.
  now rewrite wrap32_id by exact Hr.
Qed.

Lemma simTs_restart_witness :
  exists mat1 mat2,
    simTs (RS := PathKeys) [] [50; 100] (PyInt 0) (PyInt 10) (PyInt 3)
      stepIncr = Ok mat1 /\
    simTs (RS := PathKeys) [7%nat] (last mat1 [50; 100]) (PyInt 12)
      (PyInt 20) (PyInt 3) stepIncr = Ok mat2 /\
    mat1 ++ mat2 =
      [[51; 101]; [52; 102]; [53; 103]; [54; 104];
       [55; 105]; [56; 106]; [57; 107]].
Proof.
  destruct (@simTs_restart (list nat) PathKeys (list Z) [] [7%nat] [50; 100]
              0 10 20 3 stepIncr)
    as (keys1 & keys2 & mat1 & mat2 & Hk1 & Hk2 & Hrun1 & Hrun2 & Hcat);
    try (unfold in_int32; cbn; lia).
  exists mat1, mat2. split; [exact Hrun1 |]. split; [exact Hrun2 |].
  rewrite <- Hcat. injection Hk1 as <-. injection Hk2 as <-.
  vm_compute. reflexivity.
Defined.

(** ** Longer grids *)

(** X9.  On Python int times with [dt > 0] that fit [int32], a later
    terminal time never gives a shorter trajectory. *)
Theorem simTs_rows_monotone_in_tt {Key : Type} {RS : RandomSource Key}
    (State : Type) (key : Key) (x0 : State) (a b1 b2 d : Z)
    (stepFun : StepFun Key State) :
  a < b1 -> b1 <= b2 -> 0 < d -> in_int32 a -> in_int32 d ->
  exists mat1 mat2,
    simTs key x0 (PyInt a) (PyInt b1) (PyInt d) stepFun = Ok mat1 /\
    simTs key x0 (PyInt a) (PyInt b2) (PyInt d) stepFun = Ok mat2 /\
    (length mat1 <= length mat2)%nat.
Proof.
  intros Hab Hle Hd Ha Hd32.
  assert (Hab2 : a < b2) by lia.
  destruct (simTs_int_valid key x0 stepFun Hab Hd Ha Hd32)
    as (Hq1 & keys1 & _ & Hlen1 & Hrun1 & _).
  destruct (simTs_int_valid key x0 stepFun Hab2 Hd Ha Hd32)
    as (Hq2 & keys2 & _ & Hlen2 & Hrun2 & _).
  do 2 eexists. split; [exact Hrun1 |]. split; [exact Hrun2 |].
  rewrite !scan_length, Hlen1, Hlen2.
  assert ((b1 - a) / d <= (b2 - a) / d) by (apply Z.div_le_mono; lia).
  lia.
Qed.

Lemma simTs_rows_monotone_in_tt_witness :
  exists mat1 mat2,
    simTs (RS := PathKeys) [] [50; 100] (PyInt 0) (PyInt 10) (PyInt 3)
      stepIncr = Ok mat1 /\
    simTs (RS := PathKeys) [] [50; 100] (PyInt 0) (PyInt 20) (PyInt 3)
      stepIncr = Ok mat2 /\
    (length mat1 <= length mat2)%nat.
Proof.
  apply (@simTs_rows_monotone_in_tt (list nat) PathKeys (list Z) []
           [50; 100] 0 10 20 3 stepIncr); try (unfold in_int32; lia).
Defined.
